(** * Reranking orchestration of marqo: [marqo/s2_inference/reranking/rerank.py]

    A shallow embedding of the three functions of [rerank.py]

    - [_check_searchable_fields_in_results]  (the applicability guard),
    - [cleanup_final_reranked_results]       (result merge / cleanup),
    - [rerank_search_results]                (the entry point),

    over a small model of the Python objects they touch: the search result is
    a dictionary whose entry [hits] is a list of references to hit
    dictionaries, which are mutated in place. *)

From Stdlib Require Import PrimFloat Ascii.
From stdpp Require Import base option list gmap strings.

Set Default Proof Using "Type".
Local Open Scope string_scope.

(** ** Python values *)

(** The values found in a hit that the examples of the specification use:
    scores are floats, ids are strings, highlights are lists. The functions of
    [rerank.py] never inspect a value, they only move it between keys, so
    the development is generic in the type [V] of values and [pyval] serves
    for the concrete scenarios. *)
#[warnings="-register-all"]
Inductive pyval : Type :=
  | PyFloat (x : float)
  | PyStr (s : string)
  | PyList (l : list pyval).

(** The values [searchable_attributes] can hold, as [rerank.py] itself lists
    them at its line 29: [None], a list, a tuple, or a string. *)
Inductive searchable : Type :=
  | SNone
  | SList (l : list string)
  | STuple (l : list string)
  | SStr (s : string).

(** ** The enum [ResultsFields] *)

(** [marqo/s2_inference/reranking/enums.py] is not part of the sources at
    hand: the values of the enum are taken as a parameter. *)
Class ResultsFields : Type := {
  hits : string;
  original_score : string;
  highlights : string;
  reranker_score : string;
  highlights_reranked : string;
  reranked_id : string;
}.

(** The five names that live in a hit are five different keys. *)
Definition fields_distinct {F : ResultsFields} : Prop :=
  NoDup [original_score; highlights; reranker_score; highlights_reranked; reranked_id].

(** Modelled from the spec: the values of [ResultsFields] (enums.py is
    missing), each member spelled as the specification spells the key in its
    scenarios A to D. *)
Definition spec_fields : ResultsFields := {|
  hits := "hits";
  original_score := "original_score";
  highlights := "highlights";
  reranker_score := "reranker_score";
  highlights_reranked := "highlights_reranked";
  reranked_id := "reranked_id";
|}.

(** ** Objects, states and the monad of effects *)

(** A hit is a Python [dict] from field names to values. *)
Abbreviation Hit V := (gmap string V).

(** The identity of a hit object. *)
Abbreviation loc := positive.

(** [search_result] is a [Dict[List]] (docstring of [rerank_search_results]):
    each entry is a list of references to hits; [objects] holds the hit
    dictionaries those references denote. The same reference may occur
    several times in a list. *)
Record state (V : Type) : Type := State {
  search_result : gmap string (list loc);
  objects : gmap loc (Hit V);
}.
Arguments State {V} _ _.
Arguments search_result {V} _.
Arguments objects {V} _.

(** Exceptions. [RerankerError] carries the two values its message is
    formatted from; [StrategyError] stands for whatever a reranker raises. *)
Inductive exn : Type :=
  | KeyError (key : string)
  | RerankerError (found : searchable) (model_name : string)
  | StrategyError (what : string).

Inductive outcome (A : Type) : Type :=
  | Return (a : A)
  | Raise (e : exn).
Arguments Return {A} _.
Arguments Raise {A} _.

(** What a call hands back: [None], or the argument [search_result] itself. *)
Inductive retval : Type :=
  | PyNone
  | PySearchResult.

Definition M (V A : Type) : Type := state V → state V * outcome A.

Definition ret {V A} (a : A) : M V A := λ σ, (σ, Return a).
Definition raise {V A} (e : exn) : M V A := λ σ, (σ, Raise e).
Definition bind {V A B} (m : M V A) (k : A → M V B) : M V B :=
  λ σ, match m σ with
       | (σ', Return a) => k a σ'
       | (σ', Raise e) => (σ', Raise e)
       end.

Declare Scope py_scope.
Delimit Scope py_scope with py.
Notation "x ←' m ;; k" := (bind m (λ x, k))
  (at level 100, m at next level, right associativity) : py_scope.
Notation "m ;;' k" := (bind m (λ _, k))
  (at level 100, right associativity) : py_scope.
Local Open Scope py_scope.

(** [search_result[key]] *)
Definition getitem {V} (key : string) : M V (list loc) :=
  λ σ, match search_result σ !! key with
       | Some l => (σ, Return l)
       | None => (σ, Raise (KeyError key))
       end.

(** In-place update of the hit a reference denotes. *)
Definition update_hit {V} (f : Hit V → Hit V) (l : loc) : M V unit :=
  λ σ, (State (search_result σ) (alter f l (objects σ)), Return tt).

(** [for x in xs: body x] *)
Fixpoint for_each {V A} (body : A → M V unit) (xs : list A) : M V unit :=
  match xs with
  | [] => ret tt
  | x :: xs' => body x ;;' for_each body xs'
  end.

(** ** Python built-ins *)

(** [any(bs)] *)
Definition any (bs : list bool) : bool := foldr orb false bs.

(** [s in r] for a dictionary [r] *)
Definition has_key {V} (r : Hit V) (s : string) : bool := bool_decide (is_Some (r !! s)).

(** Iterating over a string yields its characters, each a string of length one. *)
Fixpoint chars (s : string) : list string :=
  match s with
  | EmptyString => []
  | String c s' => String c EmptyString :: chars s'
  end.

(** [c.lower()] on a letter of the ASCII range; other characters are kept. *)
Definition ascii_lower (c : Ascii.ascii) : Ascii.ascii :=
  let n := Ascii.nat_of_ascii c in
  if bool_decide (65 ≤ n ≤ 90)%nat then Ascii.ascii_of_nat (n + 32)%nat else c.

(** [s.lower()]. A model name is read as a string of 8-bit characters;
    letters outside the ASCII range are not folded, which leaves the test of
    line 27 for the ASCII token [owl] as it is. *)
Fixpoint lower (s : string) : string :=
  match s with
  | EmptyString => EmptyString
  | String c s' => String (ascii_lower c) (lower s')
  end.

(** [needle in hay] for two strings *)
Fixpoint str_in (needle hay : string) : bool :=
  String.prefix needle hay ||
  match hay with
  | EmptyString => false
  | String _ hay' => str_in needle hay'
  end.

(** [x in (None, [], (), '')]: equality with one of the four; a list is never
    equal to a tuple or a string. *)
Definition in_empties (x : searchable) : bool :=
  match x with
  | SNone | SList [] | STuple [] | SStr EmptyString => true
  | _ => false
  end.

(** ** The functions of [rerank.py] *)

Section rerank.
Context {V : Type} {F : ResultsFields}.

(** The hit a reference denotes. Python has no dangling reference; the
    model reads one as a hit without keys. *)
Definition deref (σ : state V) (l : loc) : Hit V := default ∅ (objects σ !! l).

(** [any([True for r in search_results[ResultsFields.hits]
          if any(s in r for s in searchable_fields)])],
    with [searchable_fields] given by the sequence of its elements. *)
Definition any_hit_has_field (searchable_fields : list string) : M V bool :=
  rs ←' getitem hits ;;
  λ σ, (σ, Return (any (map (λ _, true)
               (List.filter (λ r, any (map (has_key (deref σ r)) searchable_fields)) rs)))).

(** [_check_searchable_fields_in_results], lines 41-56. *)
Definition _check_searchable_fields_in_results (searchable_fields : searchable) : M V bool :=
  match searchable_fields with
  | SNone => ret true
  | SList fs | STuple fs => any_hit_has_field fs
  | SStr s => any_hit_has_field (chars s)
  end.

(** The body of the loop of [cleanup_final_reranked_results], lines 67-78,
    on one hit. *)
Definition cleanup_hit (result : Hit V) : Hit V :=
  let result :=
    match result !! reranker_score with
    | Some v => delete reranker_score (<[original_score := v]> result)
    | None => result
    end in
  let result :=
    match result !! highlights_reranked with
    | Some v => delete highlights_reranked (<[highlights := v]> result)
    | None => result
    end in
  if has_key result reranked_id then delete reranked_id result else result.

(** [cleanup_final_reranked_results], lines 58-78. *)
Definition cleanup_final_reranked_results : M V unit :=
  rs ←' getitem hits ;;
  for_each (update_hit cleanup_hit) rs.

Section entry_point.
(** The two rerankers of [marqo/s2_inference/reranking/cross_encoders.py]
    are external: [ReRankerOwl(model_name, device, image_size).rerank(query,
    results, image_attributes)] and [ReRankerText(model_name, device,
    num_highlights).rerank(query, results, searchable_attributes)], each
    construction followed at once by its call, are any two computations
    on the state that may raise. *)
Variable ReRankerOwl_rerank :
  string → string → Z * Z → string → searchable → M V unit.
Variable ReRankerText_rerank :
  string → string → Z → string → searchable → M V unit.

(** [rerank_search_results], lines 7-39. The argument [search_result] is
    the search result of the state. *)
Definition rerank_search_results (query model_name device : string)
    (searchable_attributes : searchable) (num_highlights : Z)
    (overwrite_original_scores_highlights : bool) : M V retval :=
  applicable ←' _check_searchable_fields_in_results searchable_attributes ;;
  if negb applicable then ret PySearchResult else
  (if str_in "owl" (lower model_name) then
     (if in_empties searchable_attributes
      then raise (RerankerError searchable_attributes model_name)
      else ret tt) ;;'
     ReRankerOwl_rerank model_name device (240, 240)%Z query searchable_attributes
   else
     ReRankerText_rerank model_name device num_highlights query searchable_attributes) ;;'
  (if overwrite_original_scores_highlights
   then cleanup_final_reranked_results
   else ret tt) ;;'
  ret PyNone.

(** A call that leaves out some of the three keyword arguments: each takes
    its default of line 8-9. *)
Definition rerank_search_results_kw (query model_name device : string)
    (searchable_attributes : option searchable) (num_highlights : option Z)
    (overwrite_original_scores_highlights : option bool) : M V retval :=
  rerank_search_results query model_name device
    (default SNone searchable_attributes)
    (default 1%Z num_highlights)
    (default true overwrite_original_scores_highlights).
End entry_point.
End rerank.

(** ** Scenarios of the specification *)

(** Scenarios A and B: [hits = [{"title": "a"}, {"desc": "b"}]]. *)
Definition scenario_AB : state pyval :=
  State {[ "hits" := [1%positive; 2%positive] ]}
        {[ 1%positive := {[ "title" := PyStr "a" ]};
           2%positive := {[ "desc" := PyStr "b" ]} ]}.

#[warnings="-inexact-float"]
Definition scenario_C_hit : Hit pyval :=
  {[ "original_score" := PyFloat 0.5;
     "reranker_score" := PyFloat 0.9;
     "reranked_id" := PyStr "x1" ]}.

#[warnings="-inexact-float"]
Definition scenario_C_cleaned : Hit pyval :=
  {[ "original_score" := PyFloat 0.9 ]}.

Definition scenario_D_hit : Hit pyval :=
  {[ "highlights" := PyList [PyStr "old"];
     "highlights_reranked" := PyList [PyStr "new"] ]}.

Definition scenario_D_cleaned : Hit pyval :=
  {[ "highlights" := PyList [PyStr "new"] ]}.

(** A result with the hits of scenarios C and D and a third one no reranker
    touched; the hit of scenario C is listed twice. *)
Definition scenario_CD : state pyval :=
  State {[ "hits" := [1%positive; 2%positive; 1%positive; 3%positive] ]}
        {[ 1%positive := scenario_C_hit;
           2%positive := scenario_D_hit;
           3%positive := {[ "title" := PyStr "a"; "original_score" := PyFloat 0.25 ]} ]}.

(** ** Definitions used to state the properties *)

(** The objects after [f] was applied in place along a list of references. *)
Definition alter_all {V} (f : Hit V → Hit V) (ls : list loc)
    (m : gmap loc (Hit V)) : gmap loc (Hit V) :=
  foldl (λ m l, alter f l m) m ls.

(** One promotion step of the cleanup: when [src] is a key, its value moves
    to [dst]. *)
Definition promote {V} (src dst : string) (h : Hit V) : Hit V :=
  match h !! src with
  | Some v => delete src (<[dst := v]> h)
  | None => h
  end.

(** The value a promotion leaves under [dst]. *)
Definition promoted {V} (src dst : string) (h : Hit V) : option V :=
  match h !! src with
  | Some v => Some v
  | None => h !! dst
  end.

(** The three scratch keys. *)
Definition scratch_fields {F : ResultsFields} : list string :=
  [reranker_score; highlights_reranked; reranked_id].

(** A hit without scratch key. *)
Definition scratch_free {V} {F : ResultsFields} (h : Hit V) : Prop :=
  h !! reranker_score = None ∧ h !! highlights_reranked = None ∧ h !! reranked_id = None.

(** [sub] occurs in [s], up to the case of ASCII letters. *)
Definition occurs_nocase (sub s : string) : Prop :=
  ∃ pre mid post, s = pre +:+ mid +:+ post ∧ lower mid = lower sub.

(** The eight spellings of the token of the image strategy. *)
Definition owl_spellings : list string :=
  ["owl"; "owL"; "oWl"; "oWL"; "Owl"; "OwL"; "OWl"; "OWL"].

(** The model name contains the token in some letter case. *)
Definition names_owl (model_name : string) : Prop :=
  ∃ pre mid post, model_name = pre +:+ mid +:+ post ∧ mid ∈ owl_spellings.

(** Some hit listed in [rs] has one of the names [fs] as a key. *)
Definition some_hit_has_field {V} (σ : state V) (rs : list loc) (fs : list string) : Prop :=
  ∃ l s, l ∈ rs ∧ s ∈ fs ∧ has_key (default ∅ (objects σ !! l)) s = true.

(** The reranker call that line 27 selects: lines 32-33 or lines 35-36. *)
Definition selected_reranker {V}
    (ReRankerOwl_rerank : string → string → Z * Z → string → searchable → M V unit)
    (ReRankerText_rerank : string → string → Z → string → searchable → M V unit)
    (query model_name device : string) (searchable_attributes : searchable)
    (num_highlights : Z) : M V unit :=
  if str_in "owl" (lower model_name)
  then ReRankerOwl_rerank model_name device (240, 240)%Z query searchable_attributes
  else ReRankerText_rerank model_name device num_highlights query searchable_attributes.

(** A reranker for the examples: it writes a score and an id onto every
    listed hit. *)
Definition toy_reranker {F : ResultsFields} (score : pyval) : M pyval unit :=
  rs ←' getitem hits ;;
  for_each (update_hit (λ h, <[reranker_score := score]> (<[reranked_id := PyStr "x1"]> h))) rs.

Definition toy_owl {F : ResultsFields}
    (model_name device : string) (image_size : Z * Z) (query : string)
    (image_attributes : searchable) : M pyval unit :=
  toy_reranker (PyFloat 0.75).

Definition toy_text {F : ResultsFields}
    (model_name device : string) (num_highlights : Z) (query : string)
    (searchable_attributes : searchable) : M pyval unit :=
  toy_reranker (PyFloat 0.5).

(** Scenarios A and B after [toy_text] ran on them. *)
Definition scenario_AB_reranked : state pyval :=
  State {[ "hits" := [1%positive; 2%positive] ]}
        {[ 1%positive := {[ "title" := PyStr "a";
                            "reranker_score" := PyFloat 0.5;
                            "reranked_id" := PyStr "x1" ]};
           2%positive := {[ "desc" := PyStr "b";
                            "reranker_score" := PyFloat 0.5;
                            "reranked_id" := PyStr "x1" ]} ]}.

(** A reranker for the examples that fails half-way: it writes its scratch
    keys onto the hits, then raises. *)
Definition toy_failing {F : ResultsFields}
    (model_name device : string) (num_highlights : Z) (query : string)
    (searchable_attributes : searchable) : M pyval unit :=
  toy_reranker (PyFloat 0.5) ;;' raise (StrategyError "inference failed").

(** A search result without the entry [hits]. *)
Definition scenario_no_hits : state pyval :=
  State {[ "query" := [] ]} {[ 1%positive := {[ "title" := PyStr "a" ]} ]}.

(** A search result with an empty list of hits. *)
Definition scenario_empty_hits : state pyval :=
  State {[ "hits" := [] ]} ∅.

(** Scenarios A and B with the same keys and other values. *)
Definition scenario_AB_other_values : state pyval :=
  State {[ "hits" := [1%positive; 2%positive] ]}
        {[ 1%positive := {[ "title" := PyList [] ]};
           2%positive := {[ "desc" := PyFloat 0.25 ]} ]}.

(** * Properties *)

(** ** The monad *)

Lemma bind_ret_l {V A B} (a : A) (k : A → M V B) (σ : state V) :
  bind (ret a) k σ = k a σ.
Proof. reflexivity. Qed.

Lemma bind_raise_l {V A B} (e : exn) (k : A → M V B) (σ : state V) :
  bind (raise e) k σ = (σ, Raise e).
Proof. reflexivity. Qed.

Lemma bind_Return {V A B} (m : M V A) (k : A → M V B) σ σ' a :
  m σ = (σ', Return a) → bind m k σ = k a σ'.
Proof. intros Hm. unfold bind. by rewrite Hm. Qed.

Lemma bind_Raise {V A B} (m : M V A) (k : A → M V B) σ σ' e :
  m σ = (σ', Raise e) → bind m k σ = (σ', Raise e).
Proof. intros Hm. unfold bind. by rewrite Hm. Qed.

Lemma getitem_Some {V} key (σ : state V) l :
  search_result σ !! key = Some l → getitem key σ = (σ, Return l).
Proof. intros Hl. unfold getitem. by rewrite Hl. Qed.

Lemma getitem_None {V} key (σ : state V) :
  search_result σ !! key = None → getitem key σ = (σ, Raise (KeyError key)).
Proof. intros Hl. unfold getitem. by rewrite Hl. Qed.

(** ** A loop that updates hits in place *)

Lemma for_each_update_hit {V} (f : Hit V → Hit V) ls (σ : state V) :
  for_each (update_hit f) ls σ
  = (State (search_result σ) (alter_all f ls (objects σ)), Return tt).
Proof.
  revert σ. induction ls as [|l ls IH]; intros [sr m]; [done|].
  cbn [for_each]. unfold bind at 1. cbn [update_hit search_result objects].
  by rewrite IH.
Qed.

(** A reference listed twice is updated twice: when [f] is idempotent that
    shows as one update. *)
Lemma lookup_alter_all {V} (f : Hit V → Hit V) ls (m : gmap loc (Hit V)) l :
  (∀ h, f (f h) = f h) →
  alter_all f ls m !! l = if bool_decide (l ∈ ls) then f <$> m !! l else m !! l.
Proof.
  intros Hf. revert m. induction ls as [|l' ls IH]; intros m; [done|].
  cbn [alter_all foldl]. fold (alter_all f ls (alter f l' m)). rewrite IH.
  destruct (decide (l = l')) as [->|Hne].
  - rewrite lookup_alter_eq. rewrite (bool_decide_eq_true_2 (l' ∈ l' :: ls)) by left.
    case_bool_decide; [|done]. destruct (m !! l'); cbn; [|done]. by rewrite Hf.
  - rewrite lookup_alter_ne by done.
    rewrite (bool_decide_ext (l ∈ l' :: ls) (l ∈ ls)); [done|].
    rewrite elem_of_cons. split; [by intros [?|?] | by right].
Qed.

(** ** Cleanup of one hit *)

Section cleanup_hit.
Context {V : Type} {F : ResultsFields}.
Implicit Types h : Hit V.

Lemma cleanup_hit_steps h :
  cleanup_hit h
  = delete reranked_id
      (promote highlights_reranked highlights (promote reranker_score original_score h)).
Proof.
  unfold cleanup_hit, has_key. case_bool_decide as Hk; [done|].
  symmetry. apply delete_id. by apply eq_None_not_Some.
Qed.

Lemma lookup_promote src dst h k :
  src ≠ dst →
  promote src dst h !! k
  = if decide (k = src) then None
    else if decide (k = dst) then promoted src dst h
    else h !! k.
Proof.
  intros Hne. unfold promote, promoted.
  destruct (h !! src) as [v|] eqn:Hsrc.
  - repeat case_decide; simplify_map_eq; done.
  - repeat case_decide; simplify_map_eq; done.
Qed.

Hypothesis Hdistinct : fields_distinct.

Lemma fields_ne :
  original_score ≠ highlights ∧ original_score ≠ reranker_score
  ∧ original_score ≠ highlights_reranked ∧ original_score ≠ reranked_id
  ∧ highlights ≠ reranker_score ∧ highlights ≠ highlights_reranked
  ∧ highlights ≠ reranked_id ∧ reranker_score ≠ highlights_reranked
  ∧ reranker_score ≠ reranked_id ∧ highlights_reranked ≠ reranked_id.
Proof using Hdistinct.
  unfold fields_distinct in Hdistinct.
  repeat match goal with
         | Hd : NoDup (_ :: _) |- _ => apply NoDup_cons in Hd as [? Hd]
         end.
  set_solver.
Qed.

Lemma promoted_promote src dst src' dst' h :
  src ≠ dst → src' ≠ src → src' ≠ dst → dst' ≠ src → dst' ≠ dst →
  promoted src' dst' (promote src dst h) = promoted src' dst' h.
Proof.
  intros. unfold promoted. rewrite !lookup_promote by done.
  by rewrite !decide_False by done.
Qed.

(** Every key of a cleaned hit, read off the hit before. *)
Lemma lookup_cleanup_hit h k :
  cleanup_hit h !! k
  = if decide (k ∈ scratch_fields) then None
    else if decide (k = original_score) then promoted reranker_score original_score h
    else if decide (k = highlights) then promoted highlights_reranked highlights h
    else h !! k.
Proof using Hdistinct.
  destruct fields_ne as (?&?&?&?&?&?&?&?&?&?).
  rewrite cleanup_hit_steps, lookup_delete, !lookup_promote by done.
  rewrite promoted_promote by done.
  unfold scratch_fields.
  repeat case_decide; subst; try done;
    repeat match goal with
           | Hin : _ ∈ _ :: _ |- _ => apply elem_of_cons in Hin as [?|Hin]
           | Hin : _ ∈ [] |- _ => by apply elem_of_nil in Hin
           | Hnin : _ ∉ _ :: _ |- _ => apply not_elem_of_cons in Hnin as [? Hnin]
           end; congruence.
Qed.

Lemma cleanup_hit_scratch_free h : scratch_free (cleanup_hit h).
Proof using Hdistinct.
  unfold scratch_free. rewrite !lookup_cleanup_hit.
  rewrite !decide_True; [done|unfold scratch_fields; rewrite !elem_of_cons; auto..].
Qed.

Lemma cleanup_hit_id h : scratch_free h → cleanup_hit h = h.
Proof.
  intros (Hs & Hh & Hi). unfold cleanup_hit, has_key. rewrite Hs, Hh.
  rewrite bool_decide_eq_false_2; [done|]. rewrite Hi. by intros [? ?].
Qed.

Lemma cleanup_hit_idemp h : cleanup_hit (cleanup_hit h) = cleanup_hit h.
Proof using Hdistinct. apply cleanup_hit_id, cleanup_hit_scratch_free. Qed.
End cleanup_hit.

(** ** Cleanup of a search result *)

Lemma spec_fields_distinct : @fields_distinct spec_fields.
Proof. unfold fields_distinct. apply (bool_decide_unpack _). vm_compute. exact I. Qed.

Section cleanup.
Context {V : Type} {F : ResultsFields}.
Implicit Types (σ : state V) (h : Hit V) (rs : list loc).

Lemma cleanup_run σ rs :
  search_result σ !! hits = Some rs →
  cleanup_final_reranked_results σ
  = (State (search_result σ) (alter_all cleanup_hit rs (objects σ)), Return tt).
Proof.
  intros Hrs. unfold cleanup_final_reranked_results.
  rewrite (bind_Return _ _ _ _ _ (getitem_Some _ _ _ Hrs)).
  apply for_each_update_hit.
Qed.

(** Without the entry [hits], line 64 raises and nothing is touched. *)
Lemma cleanup_run_KeyError σ :
  search_result σ !! hits = None →
  cleanup_final_reranked_results σ = (σ, Raise (KeyError hits)).
Proof.
  intros Hrs. unfold cleanup_final_reranked_results.
  by rewrite (bind_Raise _ _ _ _ _ (getitem_None _ _ Hrs)).
Qed.

Lemma cleanup_search_result σ :
  search_result (cleanup_final_reranked_results σ).1 = search_result σ.
Proof.
  destruct (search_result σ !! hits) as [rs|] eqn:Hrs.
  - by rewrite (cleanup_run _ _ Hrs).
  - by rewrite (cleanup_run_KeyError _ Hrs).
Qed.

Hypothesis Hdistinct : fields_distinct.

(** The objects after the cleanup: the hits listed under [hits] are
    cleaned, once, however often they are listed; no other object changes. *)
Lemma cleanup_objects σ rs l :
  search_result σ !! hits = Some rs →
  objects (cleanup_final_reranked_results σ).1 !! l
  = if bool_decide (l ∈ rs) then cleanup_hit <$> objects σ !! l else objects σ !! l.
Proof using Hdistinct.
  intros Hrs. rewrite (cleanup_run _ _ Hrs). cbn [fst objects].
  apply lookup_alter_all. intros h. by apply cleanup_hit_idemp.
Qed.

Lemma cleanup_objects_cases σ l h :
  objects σ !! l = Some h →
  objects (cleanup_final_reranked_results σ).1 !! l = Some (cleanup_hit h)
  ∨ objects (cleanup_final_reranked_results σ).1 !! l = Some h.
Proof using Hdistinct.
  intros Hl. destruct (search_result σ !! hits) as [rs|] eqn:Hrs.
  - rewrite (cleanup_objects _ _ _ Hrs), Hl. case_bool_decide; auto.
  - rewrite (cleanup_run_KeyError _ Hrs). auto.
Qed.

Lemma cleanup_deref σ rs l :
  search_result σ !! hits = Some rs → l ∈ rs →
  deref (cleanup_final_reranked_results σ).1 l = cleanup_hit (deref σ l).
Proof using Hdistinct.
  intros Hrs Hl. unfold deref. rewrite (cleanup_objects _ _ _ Hrs).
  rewrite bool_decide_eq_true_2 by done.
  destruct (objects σ !! l) as [h|]; [done|].
  cbn. symmetry. by apply cleanup_hit_id.
Qed.

Lemma cleanup_idemp σ :
  cleanup_final_reranked_results (cleanup_final_reranked_results σ).1
  = cleanup_final_reranked_results σ.
Proof using Hdistinct.
  destruct (search_result σ !! hits) as [rs|] eqn:Hrs.
  - rewrite (cleanup_run σ rs Hrs). cbn [fst].
    rewrite (cleanup_run _ rs) by done. cbn [search_result objects].
    do 2 f_equal. apply map_eq. intros l.
    rewrite !lookup_alter_all by (intros; by apply cleanup_hit_idemp).
    case_bool_decide; [|done].
    destruct (objects σ !! l); cbn; [|done]. by rewrite cleanup_hit_idemp.
  - rewrite (cleanup_run_KeyError σ Hrs). cbn [fst].
    by apply cleanup_run_KeyError.
Qed.
End cleanup.

(** ** Claims on the cleanup *)

(** C3. Scratch-field quarantine: after [cleanup_final_reranked_results] ran on
    a search result, it returned normally, the list of hits is the same, and
    none of the hits it lists contains [reranker_score], [highlights_reranked]
    or [reranked_id], whatever the hits held before. *)
Theorem cleanup_removes_scratch_fields {V} {F : ResultsFields} (σ : state V) rs :
  fields_distinct →
  search_result σ !! hits = Some rs →
  ∃ σ', cleanup_final_reranked_results σ = (σ', Return tt)
        ∧ search_result σ' !! hits = Some rs
        ∧ ∀ l k, l ∈ rs → k ∈ scratch_fields → has_key (deref σ' l) k = false.
Proof.
  intros Hd Hrs. exists (cleanup_final_reranked_results σ).1. split; [|split].
  - by rewrite (cleanup_run _ _ Hrs).
  - by rewrite cleanup_search_result.
  - intros l k Hl Hk. rewrite (cleanup_deref Hd _ _ _ Hrs Hl).
    unfold has_key. apply bool_decide_eq_false_2.
    rewrite (lookup_cleanup_hit Hd), decide_True by done. by intros [? ?].
Qed.

Lemma cleanup_removes_scratch_fields_witness :
  @fields_distinct spec_fields
  ∧ search_result scenario_CD !! "hits" = Some [1; 2; 1; 3]%positive
  ∧ ∃ σ', cleanup_final_reranked_results (F:=spec_fields) scenario_CD = (σ', Return tt)
          ∧ search_result σ' !! "hits" = Some [1; 2; 1; 3]%positive
          ∧ ∀ l k, l ∈ [1; 2; 1; 3]%positive → k ∈ @scratch_fields spec_fields →
                   has_key (deref σ' l) k = false.
Proof.
  split; [exact spec_fields_distinct|]. split; [reflexivity|].
  apply (cleanup_removes_scratch_fields (F:=spec_fields) scenario_CD);
    [exact spec_fields_distinct | reflexivity].
Defined.

(** C4. Idempotence of the cleanup: running [cleanup_final_reranked_results] a
    second time yields the state and the outcome of the first run. *)
Theorem cleanup_idempotent {V} {F : ResultsFields} (σ : state V) :
  fields_distinct →
  cleanup_final_reranked_results (cleanup_final_reranked_results σ).1
  = cleanup_final_reranked_results σ.
Proof. intros Hd. by apply cleanup_idemp. Qed.

Lemma cleanup_idempotent_witness :
  @fields_distinct spec_fields
  ∧ cleanup_final_reranked_results (F:=spec_fields)
      (cleanup_final_reranked_results (F:=spec_fields) scenario_CD).1
    = cleanup_final_reranked_results (F:=spec_fields) scenario_CD.
Proof.
  split; [exact spec_fields_distinct|].
  apply (cleanup_idempotent (F:=spec_fields) scenario_CD), spec_fields_distinct.
Defined.

(** C5. No data loss under partial reranking: for every hit object, cleaned
    or not, [original_score] is as before when the hit had no
    [reranker_score], [highlights] is as before when it had no
    [highlights_reranked], and every key other than these two and the three
    scratch keys is as before. *)
Theorem cleanup_preserves_untouched {V} {F : ResultsFields} (σ : state V) l h :
  fields_distinct →
  objects σ !! l = Some h →
  ∃ h', objects (cleanup_final_reranked_results σ).1 !! l = Some h'
        ∧ (has_key h reranker_score = false →
           h' !! original_score = h !! original_score)
        ∧ (has_key h highlights_reranked = false →
           h' !! highlights = h !! highlights)
        ∧ (∀ k, k ∉ [original_score; highlights] → k ∉ scratch_fields →
                h' !! k = h !! k).
Proof.
  intros Hd Hl. destruct (fields_ne Hd) as (?&?&?&?&?&?&?&?&?&?).
  destruct (cleanup_objects_cases Hd σ l h Hl) as [Hc|Hc];
    rewrite Hc; eexists; (split; [done|]); [|done].
  unfold has_key. split; [|split].
  - intros Hk%bool_decide_eq_false_1%eq_None_not_Some.
    rewrite (lookup_cleanup_hit Hd). unfold scratch_fields, promoted.
    rewrite decide_False, decide_True, Hk; [done..|].
    rewrite !not_elem_of_cons. split_and!; [done..|apply not_elem_of_nil].
  - intros Hk%bool_decide_eq_false_1%eq_None_not_Some.
    rewrite (lookup_cleanup_hit Hd). unfold scratch_fields, promoted.
    rewrite decide_False, decide_False, decide_True, Hk; [done..|].
    rewrite !not_elem_of_cons. split_and!; [done..|apply not_elem_of_nil].
  - intros k [? [? _]%not_elem_of_cons]%not_elem_of_cons Hs.
    rewrite (lookup_cleanup_hit Hd). by rewrite !decide_False.
Qed.

Lemma cleanup_preserves_untouched_witness :
  @fields_distinct spec_fields
  ∧ objects scenario_CD !! 3%positive
    = Some {[ "title" := PyStr "a"; "original_score" := PyFloat 0.25 ]}
  ∧ ∃ h', objects (cleanup_final_reranked_results (F:=spec_fields) scenario_CD).1 !! 3%positive
          = Some h'
          ∧ (has_key (V:=pyval) {[ "title" := PyStr "a"; "original_score" := PyFloat 0.25 ]}
               "reranker_score" = false →
             h' !! "original_score" = Some (PyFloat 0.25))
          ∧ (has_key (V:=pyval) {[ "title" := PyStr "a"; "original_score" := PyFloat 0.25 ]}
               "highlights_reranked" = false →
             h' !! "highlights" = None)
          ∧ (∀ k, k ∉ ["original_score"; "highlights"] → k ∉ @scratch_fields spec_fields →
                  h' !! k = ({[ "title" := PyStr "a"; "original_score" := PyFloat 0.25 ]}
                             : Hit pyval) !! k).
Proof.
  split; [exact spec_fields_distinct|]. split; [reflexivity|].
  apply (cleanup_preserves_untouched (F:=spec_fields) scenario_CD 3%positive);
    [exact spec_fields_distinct | reflexivity].
Defined.

(** C6. Promotion: a hit listed under [hits] that holds [reranker_score]
    has, after the cleanup, that value as its [original_score], and neither
    [reranker_score] nor [reranked_id]; one that holds [highlights_reranked]
    has that value as its [highlights], and no [highlights_reranked]. With
    the keys spelled as in the specification, the hit of scenario C becomes
    exactly [{"original_score": 0.9}] and the hit of scenario D exactly
    [{"highlights": ["new"]}], on their own and inside a search result. *)
Theorem cleanup_promotes_reranked :
  (∀ V (F : ResultsFields) (σ : state V) rs l h,
     fields_distinct →
     search_result σ !! hits = Some rs → l ∈ rs → objects σ !! l = Some h →
     ∃ h', objects (cleanup_final_reranked_results σ).1 !! l = Some h'
           ∧ (∀ v, h !! reranker_score = Some v →
                   h' !! original_score = Some v
                   ∧ has_key h' reranker_score = false
                   ∧ has_key h' reranked_id = false)
           ∧ (∀ v, h !! highlights_reranked = Some v →
                   h' !! highlights = Some v
                   ∧ has_key h' highlights_reranked = false))
  ∧ cleanup_hit (F:=spec_fields) scenario_C_hit = scenario_C_cleaned
  ∧ cleanup_hit (F:=spec_fields) scenario_D_hit = scenario_D_cleaned
  ∧ cleanup_final_reranked_results (F:=spec_fields) scenario_CD
    = (State {[ "hits" := [1; 2; 1; 3]%positive ]}
             {[ 1%positive := scenario_C_cleaned;
                2%positive := scenario_D_cleaned;
                3%positive := {[ "title" := PyStr "a"; "original_score" := PyFloat 0.25 ]} ]},
       Return tt).
Proof.
  split; [|by vm_compute].
  intros V F σ rs l h Hd Hrs Hl Hh.
  destruct (fields_ne Hd) as (?&?&?&?&?&?&?&?&?&?).
  exists (cleanup_hit h). rewrite (cleanup_objects Hd _ _ _ Hrs), Hh.
  rewrite bool_decide_eq_true_2 by done. split; [done|].
  assert (∀ k, k ∈ scratch_fields → has_key (cleanup_hit h) k = false) as Hfree.
  { intros k Hk. unfold has_key. apply bool_decide_eq_false_2.
    rewrite (lookup_cleanup_hit Hd), decide_True by done. by intros [? ?]. }
  assert ((original_score ∉ scratch_fields) ∧ (highlights ∉ scratch_fields)) as [? ?].
  { unfold scratch_fields. rewrite !not_elem_of_cons.
    split_and!; first [done | apply not_elem_of_nil]. }
  unfold scratch_fields in Hfree. split.
  - intros v Hv. split_and!; [|apply Hfree; rewrite !elem_of_cons; auto..].
    rewrite (lookup_cleanup_hit Hd), decide_False, decide_True by done.
    unfold promoted. by rewrite Hv.
  - intros v Hv. split; [|apply Hfree; rewrite !elem_of_cons; auto].
    rewrite (lookup_cleanup_hit Hd), decide_False, decide_False, decide_True by done.
    unfold promoted. by rewrite Hv.
Qed.

#[warnings="-inexact-float"]
Lemma cleanup_promotes_reranked_witness :
  @fields_distinct spec_fields
  ∧ search_result scenario_CD !! "hits" = Some [1; 2; 1; 3]%positive
  ∧ 1%positive ∈ [1; 2; 1; 3]%positive
  ∧ objects scenario_CD !! 1%positive = Some scenario_C_hit
  ∧ ∃ h', objects (cleanup_final_reranked_results (F:=spec_fields) scenario_CD).1 !! 1%positive
          = Some h'
          ∧ (∀ v, scenario_C_hit !! "reranker_score" = Some v →
                  h' !! "original_score" = Some v
                  ∧ has_key h' "reranker_score" = false
                  ∧ has_key h' "reranked_id" = false)
          ∧ (∀ v, scenario_C_hit !! "highlights_reranked" = Some v →
                  h' !! "highlights" = Some v
                  ∧ has_key h' "highlights_reranked" = false).
Proof.
  split; [exact spec_fields_distinct|]. split; [reflexivity|].
  split; [by left|]. split; [reflexivity|].
  apply (proj1 cleanup_promotes_reranked pyval spec_fields scenario_CD [1; 2; 1; 3]%positive);
    [exact spec_fields_distinct | reflexivity | by left | reflexivity].
Defined.

(** ** The applicability guard *)

Lemma any_true bs : any bs = true ↔ true ∈ bs.
Proof.
  induction bs as [|b bs IH]; cbn.
  - split; [done|]. by intros ?%elem_of_nil.
  - rewrite elem_of_cons, orb_true_iff, IH. split; intros [?|?]; auto.
Qed.

Lemma any_map_true {A} (P : A → bool) xs :
  any (map P xs) = true ↔ ∃ x, x ∈ xs ∧ P x = true.
Proof.
  rewrite any_true, list_elem_of_fmap. split.
  - intros (x & ? & ?). eauto.
  - intros (x & ? & ?). eauto.
Qed.

(** [any([True for x in xs if P x])] *)
Lemma any_comprehension {A} (P : A → bool) xs :
  any (map (λ _, true) (List.filter P xs)) = true ↔ ∃ x, x ∈ xs ∧ P x = true.
Proof.
  rewrite any_map_true. split.
  - intros (x & [? ?]%list_elem_of_In%filter_In & _). exists x.
    by rewrite list_elem_of_In.
  - intros (x & ? & ?). exists x. split; [|done].
    apply list_elem_of_In, filter_In. by rewrite <- list_elem_of_In.
Qed.

Section guard.
Context {V : Type} {F : ResultsFields}.
Implicit Types (σ : state V) (rs : list loc) (fs : list string).

Lemma any_hit_has_field_run σ rs fs :
  search_result σ !! hits = Some rs →
  ∃ b, any_hit_has_field fs σ = (σ, Return b)
       ∧ (b = true ↔ some_hit_has_field σ rs fs).
Proof.
  intros Hrs. eexists. split.
  - unfold any_hit_has_field. by rewrite (bind_Return _ _ _ _ _ (getitem_Some _ _ _ Hrs)).
  - rewrite any_comprehension. unfold some_hit_has_field, deref. split.
    + intros (l & Hl & (s & ? & ?)%any_map_true). eauto.
    + intros (l & s & ? & ? & ?). exists l. split; [done|].
      apply any_map_true. eauto.
Qed.

Lemma any_hit_has_field_nil σ rs :
  search_result σ !! hits = Some rs →
  any_hit_has_field [] σ = (σ, Return false).
Proof.
  intros Hrs. destruct (any_hit_has_field_run σ rs [] Hrs) as (b & -> & Hb).
  destruct b; [|done]. destruct (proj1 Hb eq_refl) as (? & ? & _ & []%elem_of_nil & _).
Qed.

(** Without the entry [hits], line 56 raises. *)
Lemma any_hit_has_field_KeyError σ fs :
  search_result σ !! hits = None →
  any_hit_has_field fs σ = (σ, Raise (KeyError hits)).
Proof.
  intros Hrs. unfold any_hit_has_field.
  by rewrite (bind_Raise _ _ _ _ _ (getitem_None _ _ Hrs)).
Qed.
End guard.

(** C2. The guard answers true on every state when [searchable_fields] is
    [None]; on a search result with an entry [hits] and a non-empty list of
    names it returns, leaves the state alone, and answers true exactly when
    some listed hit has some listed name as a key. *)
Theorem check_searchable_fields_correct {V} {F : ResultsFields} (σ : state V) :
  _check_searchable_fields_in_results SNone σ = (σ, Return true)
  ∧ ∀ rs fs,
      fs ≠ [] →
      search_result σ !! hits = Some rs →
      ∃ b, _check_searchable_fields_in_results (SList fs) σ = (σ, Return b)
           ∧ (b = true ↔ some_hit_has_field σ rs fs).
Proof.
  split; [done|]. intros rs fs _ Hrs. by apply any_hit_has_field_run.
Qed.

Lemma check_searchable_fields_correct_witness :
  ["title"] ≠ []
  ∧ search_result scenario_AB !! "hits" = Some [1; 2]%positive
  ∧ ∃ b, _check_searchable_fields_in_results (F:=spec_fields) (SList ["title"]) scenario_AB
         = (scenario_AB, Return b)
         ∧ (b = true ↔ some_hit_has_field scenario_AB [1; 2]%positive ["title"]).
Proof.
  split; [discriminate|]. split; [reflexivity|].
  apply (proj2 (check_searchable_fields_correct (F:=spec_fields) scenario_AB));
    [discriminate | reflexivity].
Defined.

(** ** Strings: [lower] and [in] *)

Lemma append_cons c s t : String c s +:+ t = String c (s +:+ t).
Proof. reflexivity. Qed.

Lemma append_nil t : "" +:+ t = t.
Proof. reflexivity. Qed.

Lemma prefix_spec needle hay :
  String.prefix needle hay = true ↔ ∃ post, hay = needle +:+ post.
Proof.
  revert hay. induction needle as [|c needle IH]; intros [|d hay]; cbn.
  - split; [by exists ""|done].
  - split; [by exists (String d hay)|done].
  - split; [done|]. by intros (post & ?).
  - destruct (Ascii.ascii_dec c d) as [->|Hne].
    + rewrite IH. split; intros (post & Hp); exists post.
      * by rewrite append_cons, Hp.
      * rewrite append_cons in Hp. congruence.
    + split; [done|]. intros (post & Hp). rewrite append_cons in Hp. congruence.
Qed.

(** [needle in hay] holds exactly when [needle] is a contiguous part of [hay]. *)
Lemma str_in_spec needle hay :
  str_in needle hay = true ↔ ∃ pre post, hay = pre +:+ needle +:+ post.
Proof.
  induction hay as [|d hay IH]; cbn [str_in]; rewrite orb_true_iff, prefix_spec.
  - split.
    + intros [(post & Hp)|?]; [|done]. by exists "", post.
    + intros (pre & post & Hp). left. destruct pre as [|c pre]; [by exists post|].
      by rewrite append_cons in Hp.
  - rewrite IH. split.
    + intros [(post & Hp)|(pre & post & Hp)].
      * by exists "", post.
      * exists (String d pre), post. by rewrite append_cons, Hp.
    + intros (pre & post & Hp). destruct pre as [|c pre].
      * left. by exists post.
      * right. exists pre, post. rewrite append_cons in Hp. congruence.
Qed.

Lemma lower_app s t : lower (s +:+ t) = lower s +:+ lower t.
Proof.
  induction s as [|c s IH]; [done|].
  rewrite append_cons. cbn [lower]. by rewrite append_cons, IH.
Qed.

Lemma lower_app_inv s a b :
  lower s = a +:+ b → ∃ s1 s2, s = s1 +:+ s2 ∧ lower s1 = a ∧ lower s2 = b.
Proof.
  revert s. induction a as [|c a IH]; intros s Hs.
  - by exists "", s.
  - rewrite append_cons in Hs. destruct s as [|d s]; [done|].
    cbn [lower] in Hs. injection Hs as Hc Hs.
    destruct (IH s Hs) as (s1 & s2 & -> & <- & <-).
    exists (String d s1), s2. cbn [lower]. by rewrite Hc.
Qed.

Lemma ascii_lower_o c : ascii_lower c = "o"%char → c = "o"%char ∨ c = "O"%char.
Proof.
  destruct c as [[] [] [] [] [] [] [] []]; vm_compute; intros Hc;
    first [discriminate Hc | by left | by right].
Qed.

Lemma ascii_lower_w c : ascii_lower c = "w"%char → c = "w"%char ∨ c = "W"%char.
Proof.
  destruct c as [[] [] [] [] [] [] [] []]; vm_compute; intros Hc;
    first [discriminate Hc | by left | by right].
Qed.

Lemma ascii_lower_l c : ascii_lower c = "l"%char → c = "l"%char ∨ c = "L"%char.
Proof.
  destruct c as [[] [] [] [] [] [] [] []]; vm_compute; intros Hc;
    first [discriminate Hc | by left | by right].
Qed.

Lemma lower_owl mid : lower mid = "owl" ↔ mid ∈ owl_spellings.
Proof.
  split.
  - destruct mid as [|a [|b [|c [|? ?]]]]; try done. cbn. intros [= Ha Hb Hc].
    apply ascii_lower_o in Ha as [-> | ->]; apply ascii_lower_w in Hb as [-> | ->];
      apply ascii_lower_l in Hc as [-> | ->];
      unfold owl_spellings; rewrite !elem_of_cons; auto 10.
  - unfold owl_spellings. rewrite !elem_of_cons, elem_of_nil.
    intros [->|[->|[->|[->|[->|[->|[->|[->|[]]]]]]]]]; reflexivity.
Qed.

(** Line 27: ['owl' in model_name.lower()] is the test that the model name
    contains the token in some letter case. *)
Lemma owl_in_lower model_name :
  str_in "owl" (lower model_name) = true ↔ names_owl model_name.
Proof.
  rewrite str_in_spec. unfold names_owl. split.
  - intros (pre & post & (s1 & s2 & -> & _ & (mid & s3 & -> & Hmid & _)%lower_app_inv)%lower_app_inv).
    exists s1, mid, s3. by rewrite <- lower_owl.
  - intros (pre & mid & post & -> & Hmid%lower_owl).
    exists (lower pre), (lower post). by rewrite !lower_app, Hmid.
Qed.

Lemma owl_not_in_lower model_name :
  str_in "owl" (lower model_name) = false ↔ ¬ names_owl model_name.
Proof. rewrite <- owl_in_lower. by destruct (str_in _ _). Qed.

(** ** The entry point *)

Section entry_point_lemmas.
Context {V : Type} {F : ResultsFields}.
Variable ReRankerOwl_rerank : string → string → Z * Z → string → searchable → M V unit.
Variable ReRankerText_rerank : string → string → Z → string → searchable → M V unit.
Implicit Types (σ : state V) (sa : searchable).

Abbreviation rerank := (rerank_search_results ReRankerOwl_rerank ReRankerText_rerank).

(** The guard reads, it never writes. *)
Lemma check_searchable_fields_pure sa σ :
  (_check_searchable_fields_in_results sa σ).1 = σ.
Proof.
  assert (∀ fs, (any_hit_has_field fs σ).1 = σ) as Hany.
  { intros fs. unfold any_hit_has_field, bind, getitem.
    by destruct (search_result σ !! hits). }
  destruct sa; cbn; auto.
Qed.

Lemma check_searchable_fields_empty sa σ rs :
  search_result σ !! hits = Some rs →
  sa ∈ [SList []; STuple []; SStr ""] →
  _check_searchable_fields_in_results sa σ = (σ, Return false).
Proof.
  intros Hrs. rewrite !elem_of_cons, elem_of_nil.
  intros [->|[->|[->|[]]]]; cbn; by apply (any_hit_has_field_nil _ rs).
Qed.

(** Line 25: the guard said no. *)
Lemma rerank_rejected query model_name device sa nh ow σ :
  _check_searchable_fields_in_results sa σ = (σ, Return false) →
  rerank query model_name device sa nh ow σ = (σ, Return PySearchResult).
Proof.
  intros Hg. unfold rerank_search_results. by rewrite (bind_Return _ _ _ _ _ Hg).
Qed.

(** Line 30: the image strategy without attributes. *)
Lemma rerank_owl_empties query model_name device sa nh ow σ :
  _check_searchable_fields_in_results sa σ = (σ, Return true) →
  str_in "owl" (lower model_name) = true →
  in_empties sa = true →
  rerank query model_name device sa nh ow σ = (σ, Raise (RerankerError sa model_name)).
Proof.
  intros Hg Howl He. unfold rerank_search_results.
  rewrite (bind_Return _ _ _ _ _ Hg). cbn [negb]. by rewrite Howl, He.
Qed.

(** Lines 27-39 once the guard said yes and line 29 did not raise. *)
Lemma rerank_accepted query model_name device sa nh ow σ :
  _check_searchable_fields_in_results sa σ = (σ, Return true) →
  str_in "owl" (lower model_name) && in_empties sa = false →
  rerank query model_name device sa nh ow σ
  = (selected_reranker ReRankerOwl_rerank ReRankerText_rerank
       query model_name device sa nh ;;'
     (if ow then cleanup_final_reranked_results else ret tt) ;;'
     ret PyNone) σ.
Proof.
  intros Hg Hpre. unfold rerank_search_results, selected_reranker.
  rewrite (bind_Return _ _ _ _ _ Hg). cbn [negb].
  destruct (str_in "owl" (lower model_name)); [|done].
  cbn in Hpre. rewrite Hpre. unfold bind at 2. by unfold ret at 1.
Qed.

(** An exception of the reranker passes through; no cleanup runs. *)
Lemma rerank_strategy_raises query model_name device sa nh ow σ σ1 e :
  _check_searchable_fields_in_results sa σ = (σ, Return true) →
  str_in "owl" (lower model_name) && in_empties sa = false →
  selected_reranker ReRankerOwl_rerank ReRankerText_rerank
    query model_name device sa nh σ = (σ1, Raise e) →
  rerank query model_name device sa nh ow σ = (σ1, Raise e).
Proof.
  intros Hg Hpre Hs. rewrite rerank_accepted by done.
  by rewrite (bind_Raise _ _ _ _ _ Hs).
Qed.
End entry_point_lemmas.

(** Line 30 is reached with [None], on every state: the guard lets [None]
    through without looking at the search result. *)
Lemma rerank_owl_None {V} {F : ResultsFields}
    (ReRankerOwl_rerank : string → string → Z * Z → string → searchable → M V unit)
    (ReRankerText_rerank : string → string → Z → string → searchable → M V unit)
    query model_name device nh ow (σ : state V) :
  names_owl model_name →
  rerank_search_results ReRankerOwl_rerank ReRankerText_rerank
    query model_name device SNone nh ow σ
  = (σ, Raise (RerankerError SNone model_name)).
Proof. intros Howl%owl_in_lower. by apply rerank_owl_empties. Qed.

(** ** Claims on the guard and the entry point *)

(** C10. With an entry [hits], the guard answers false on each of the empty
    collections [[]], [()] and [""], whatever the hits contain; so
    [rerank_search_results] returns at its line 25, for every model name,
    with the state as it was and without raising. *)
Theorem empty_searchable_attributes_skip {V} {F : ResultsFields}
    (ReRankerOwl_rerank : string → string → Z * Z → string → searchable → M V unit)
    (ReRankerText_rerank : string → string → Z → string → searchable → M V unit)
    query model_name device sa nh ow (σ : state V) rs :
  search_result σ !! hits = Some rs →
  sa ∈ [SList []; STuple []; SStr ""] →
  _check_searchable_fields_in_results sa σ = (σ, Return false)
  ∧ rerank_search_results ReRankerOwl_rerank ReRankerText_rerank
      query model_name device sa nh ow σ
    = (σ, Return PySearchResult).
Proof.
  intros Hrs Hsa.
  pose proof (check_searchable_fields_empty sa σ rs Hrs Hsa) as Hg.
  split; [done|]. by apply rerank_rejected.
Qed.

Lemma empty_searchable_attributes_skip_witness :
  search_result scenario_AB !! "hits" = Some [1; 2]%positive
  ∧ SList [] ∈ [SList []; STuple []; SStr ""]
  ∧ _check_searchable_fields_in_results (F:=spec_fields) (SList []) scenario_AB
    = (scenario_AB, Return false)
  ∧ rerank_search_results (F:=spec_fields) (@toy_owl spec_fields) (@toy_text spec_fields)
      "query" "google/owlvit-base-patch32" "cpu" (SList []) 1 true scenario_AB
    = (scenario_AB, Return PySearchResult).
Proof.
  split; [reflexivity|]. split; [by left|].
  apply (empty_searchable_attributes_skip (F:=spec_fields) (@toy_owl spec_fields) (@toy_text spec_fields)
           "query" "google/owlvit-base-patch32" "cpu" (SList []) 1 true
           scenario_AB [1; 2]%positive); [reflexivity | by left].
Defined.

(** C1, at inputs the code can receive: with a model name that contains
    [owl] and [searchable_attributes] one of [[]], [()] and [""], the call
    returns [search_result] and raises nothing, the check of line 29 is
    never reached; only with [None] does it raise [RerankerError], the state
    untouched. *)
Theorem owl_precondition_at_empty_collections
    (ReRankerOwl_rerank : string → string → Z * Z → string → searchable → M pyval unit)
    (ReRankerText_rerank : string → string → Z → string → searchable → M pyval unit) :
  str_in "owl" (lower "google/owlvit-base-patch32") = true
  ∧ rerank_search_results (F:=spec_fields) ReRankerOwl_rerank ReRankerText_rerank
      "query" "google/owlvit-base-patch32" "cpu" (SList []) 1 true scenario_AB
    = (scenario_AB, Return PySearchResult)
  ∧ rerank_search_results (F:=spec_fields) ReRankerOwl_rerank ReRankerText_rerank
      "query" "google/owlvit-base-patch32" "cpu" (STuple []) 1 true scenario_AB
    = (scenario_AB, Return PySearchResult)
  ∧ rerank_search_results (F:=spec_fields) ReRankerOwl_rerank ReRankerText_rerank
      "query" "google/owlvit-base-patch32" "cpu" (SStr "") 1 true scenario_AB
    = (scenario_AB, Return PySearchResult)
  ∧ rerank_search_results (F:=spec_fields) ReRankerOwl_rerank ReRankerText_rerank
      "query" "google/owlvit-base-patch32" "cpu" SNone 1 true scenario_AB
    = (scenario_AB, Raise (RerankerError SNone "google/owlvit-base-patch32")).
Proof. repeat split. Qed.

(** C7, at scenario B of the specification: the guard rejects the search
    result, the call leaves the state as it was, and what it returns is the
    argument [search_result], not [None]. *)
Theorem rejected_call_returns_its_argument
    (ReRankerOwl_rerank : string → string → Z * Z → string → searchable → M pyval unit)
    (ReRankerText_rerank : string → string → Z → string → searchable → M pyval unit) :
  _check_searchable_fields_in_results (F:=spec_fields) (SList ["price"]) scenario_AB
  = (scenario_AB, Return false)
  ∧ rerank_search_results (F:=spec_fields) ReRankerOwl_rerank ReRankerText_rerank
      "query" "cross-encoder/ms-marco-MiniLM-L-6-v2" "cpu" (SList ["price"]) 1 true
      scenario_AB
    = (scenario_AB, Return PySearchResult)
  ∧ PySearchResult ≠ PyNone.
Proof. split_and!; [reflexivity | reflexivity | discriminate]. Qed.

(** C8. Once the guard has accepted the search result, the model name alone
    picks the reranker: a name that contains [owl] in some letter case goes
    to the Owl reranker (after the check of line 29, which raises on
    attributes left out), every other name goes to the Text reranker;
    nothing else is consulted. *)
Theorem strategy_selected_by_model_name {V} {F : ResultsFields}
    (ReRankerOwl_rerank : string → string → Z * Z → string → searchable → M V unit)
    (ReRankerText_rerank : string → string → Z → string → searchable → M V unit)
    query model_name device sa nh ow (σ : state V) :
  _check_searchable_fields_in_results sa σ = (σ, Return true) →
  (names_owl model_name → in_empties sa = false →
     rerank_search_results ReRankerOwl_rerank ReRankerText_rerank
       query model_name device sa nh ow σ
     = (ReRankerOwl_rerank model_name device (240, 240)%Z query sa ;;'
        (if ow then cleanup_final_reranked_results else ret tt) ;;'
        ret PyNone) σ)
  ∧ (names_owl model_name → in_empties sa = true →
     rerank_search_results ReRankerOwl_rerank ReRankerText_rerank
       query model_name device sa nh ow σ
     = (σ, Raise (RerankerError sa model_name)))
  ∧ (¬ names_owl model_name →
     rerank_search_results ReRankerOwl_rerank ReRankerText_rerank
       query model_name device sa nh ow σ
     = (ReRankerText_rerank model_name device nh query sa ;;'
        (if ow then cleanup_final_reranked_results else ret tt) ;;'
        ret PyNone) σ).
Proof.
  intros Hg. split_and!.
  - intros Howl%owl_in_lower He.
    rewrite rerank_accepted; [|done|by rewrite Howl, He].
    unfold selected_reranker. by rewrite Howl.
  - intros Howl%owl_in_lower He. by apply rerank_owl_empties.
  - intros Howl%owl_not_in_lower.
    rewrite rerank_accepted; [|done|by rewrite Howl].
    unfold selected_reranker. by rewrite Howl.
Qed.

Lemma strategy_selected_by_model_name_witness :
  _check_searchable_fields_in_results (F:=spec_fields) (SList ["title"]) scenario_AB
  = (scenario_AB, Return true)
  ∧ names_owl "google/OWLvit-base-patch32"
  ∧ rerank_search_results (F:=spec_fields) (@toy_owl spec_fields) (@toy_text spec_fields)
      "query" "google/OWLvit-base-patch32" "cpu" (SList ["title"]) 1 false scenario_AB
    = (@toy_owl spec_fields "google/OWLvit-base-patch32" "cpu" (240, 240)%Z "query"
         (SList ["title"]) ;;'
       ret tt ;;'
       ret PyNone) scenario_AB.
Proof.
  assert (names_owl "google/OWLvit-base-patch32") as Howl.
  { exists "google/", "OWL", "vit-base-patch32". split; [reflexivity|].
    unfold owl_spellings. rewrite !elem_of_cons. auto 10. }
  split; [reflexivity|]. split; [exact Howl|].
  apply (proj1 (strategy_selected_by_model_name (F:=spec_fields)
                  (@toy_owl spec_fields) (@toy_text spec_fields)
                  "query" "google/OWLvit-base-patch32" "cpu" (SList ["title"]) 1 false
                  scenario_AB eq_refl));
    [exact Howl | reflexivity].
Defined.

(** C9. Once the guard has accepted the search result and the selected
    reranker has returned, leaving the state [σ1]: with the flag false the
    call ends in [σ1] itself, with whatever the reranker wrote and nothing
    overwritten; with the flag true it ends in the state and outcome of one
    run of [cleanup_final_reranked_results] on [σ1]; and a call that leaves
    the flag out is a call with the flag true. *)
Theorem overwrite_flag_controls_cleanup {V} {F : ResultsFields}
    (ReRankerOwl_rerank : string → string → Z * Z → string → searchable → M V unit)
    (ReRankerText_rerank : string → string → Z → string → searchable → M V unit)
    query model_name device sa nh (σ σ1 : state V) :
  _check_searchable_fields_in_results sa σ = (σ, Return true) →
  str_in "owl" (lower model_name) && in_empties sa = false →
  selected_reranker ReRankerOwl_rerank ReRankerText_rerank
    query model_name device sa nh σ = (σ1, Return tt) →
  rerank_search_results ReRankerOwl_rerank ReRankerText_rerank
    query model_name device sa nh false σ
  = (σ1, Return PyNone)
  ∧ rerank_search_results ReRankerOwl_rerank ReRankerText_rerank
      query model_name device sa nh true σ
    = (cleanup_final_reranked_results ;;' ret PyNone) σ1
  ∧ rerank_search_results_kw ReRankerOwl_rerank ReRankerText_rerank
      query model_name device (Some sa) (Some nh) None σ
    = rerank_search_results ReRankerOwl_rerank ReRankerText_rerank
        query model_name device sa nh true σ.
Proof.
  intros Hg Hpre Hs. split_and!; [| |done].
  - rewrite rerank_accepted by done. by rewrite (bind_Return _ _ _ _ _ Hs).
  - rewrite rerank_accepted by done. by rewrite (bind_Return _ _ _ _ _ Hs).
Qed.

Lemma overwrite_flag_controls_cleanup_witness :
  _check_searchable_fields_in_results (F:=spec_fields) (SList ["title"]) scenario_AB
  = (scenario_AB, Return true)
  ∧ str_in "owl" (lower "cross-encoder/ms-marco-MiniLM-L-6-v2")
    && in_empties (SList ["title"]) = false
  ∧ selected_reranker (@toy_owl spec_fields) (@toy_text spec_fields)
      "query" "cross-encoder/ms-marco-MiniLM-L-6-v2" "cpu" (SList ["title"]) 1 scenario_AB
    = (scenario_AB_reranked, Return tt)
  ∧ rerank_search_results (F:=spec_fields) (@toy_owl spec_fields) (@toy_text spec_fields)
      "query" "cross-encoder/ms-marco-MiniLM-L-6-v2" "cpu" (SList ["title"]) 1 false
      scenario_AB
    = (scenario_AB_reranked, Return PyNone)
  ∧ rerank_search_results (F:=spec_fields) (@toy_owl spec_fields) (@toy_text spec_fields)
      "query" "cross-encoder/ms-marco-MiniLM-L-6-v2" "cpu" (SList ["title"]) 1 true
      scenario_AB
    = (cleanup_final_reranked_results (F:=spec_fields) ;;' ret PyNone) scenario_AB_reranked
  ∧ rerank_search_results_kw (F:=spec_fields) (@toy_owl spec_fields) (@toy_text spec_fields)
      "query" "cross-encoder/ms-marco-MiniLM-L-6-v2" "cpu" (Some (SList ["title"])) (Some 1%Z)
      None scenario_AB
    = rerank_search_results (F:=spec_fields) (@toy_owl spec_fields) (@toy_text spec_fields)
        "query" "cross-encoder/ms-marco-MiniLM-L-6-v2" "cpu" (SList ["title"]) 1 true
        scenario_AB.
Proof.
  split; [reflexivity|]. split; [reflexivity|]. split; [by vm_compute|].
  apply (overwrite_flag_controls_cleanup (F:=spec_fields)
           (@toy_owl spec_fields) (@toy_text spec_fields)
           "query" "cross-encoder/ms-marco-MiniLM-L-6-v2" "cpu" (SList ["title"]) 1
           scenario_AB scenario_AB_reranked);
    [reflexivity | reflexivity | by vm_compute].
Defined.

(** * Further properties of the code *)

(** ** The loop of the cleanup *)

Lemma lookup_alter_all_notin {V} (f : Hit V → Hit V) ls (m : gmap loc (Hit V)) l :
  l ∉ ls → alter_all f ls m !! l = m !! l.
Proof.
  revert m. induction ls as [|l' ls IH]; intros m Hl; [done|].
  apply not_elem_of_cons in Hl as [Hne Hl].
  cbn [alter_all foldl]. fold (alter_all f ls (alter f l' m)).
  rewrite IH by done. by apply lookup_alter_ne.
Qed.

Lemma dom_alter_all {V} (f : Hit V → Hit V) ls (m : gmap loc (Hit V)) :
  dom (alter_all f ls m) = dom m.
Proof.
  revert m. induction ls as [|l' ls IH]; intros m; [done|].
  cbn [alter_all foldl]. fold (alter_all f ls (alter f l' m)).
  rewrite IH. apply set_eq. intros l. rewrite !elem_of_dom.
  destruct (decide (l' = l)) as [->|Hne].
  - rewrite lookup_alter_eq. by rewrite fmap_is_Some.
  - by rewrite lookup_alter_ne.
Qed.

Lemma alter_all_id {V} (f : Hit V → Hit V) ls (m : gmap loc (Hit V)) :
  (∀ l h, l ∈ ls → m !! l = Some h → f h = h) → alter_all f ls m = m.
Proof.
  induction ls as [|l' ls IH]; intros Hf; [done|].
  cbn [alter_all foldl]. fold (alter_all f ls (alter f l' m)).
  assert (alter f l' m = m) as ->.
  { apply map_eq. intros l. destruct (decide (l' = l)) as [->|Hne].
    - rewrite lookup_alter_eq. destruct (m !! l) as [h|] eqn:Hl; [|done].
      cbn. f_equal. apply (Hf l); [by left|done].
    - by rewrite lookup_alter_ne. }
  apply IH. intros l h Hl. apply Hf. by right.
Qed.

(** X1. [cleanup_final_reranked_results] raises exactly when the search
    result has no entry [hits]: then it raises [KeyError] on that key and
    leaves the state as it was; it raises nothing else. *)
Theorem cleanup_fails_only_without_hits {V} {F : ResultsFields} (σ : state V) :
  (search_result σ !! hits = None →
   cleanup_final_reranked_results σ = (σ, Raise (KeyError hits)))
  ∧ (∀ σ' e, cleanup_final_reranked_results σ = (σ', Raise e) →
             search_result σ !! hits = None ∧ e = KeyError hits ∧ σ' = σ).
Proof.
  split; [apply cleanup_run_KeyError|].
  intros σ' e. destruct (search_result σ !! hits) as [rs|] eqn:Hrs.
  - by rewrite (cleanup_run _ _ Hrs).
  - rewrite (cleanup_run_KeyError _ Hrs). by intros [= <- <-].
Qed.

Lemma cleanup_fails_only_without_hits_witness :
  search_result scenario_no_hits !! "hits" = None
  ∧ cleanup_final_reranked_results (F:=spec_fields) scenario_no_hits
    = (scenario_no_hits, Raise (KeyError "hits")).
Proof.
  split; [reflexivity|].
  apply (proj1 (cleanup_fails_only_without_hits (F:=spec_fields) scenario_no_hits)).
  reflexivity.
Defined.

(** X2. The cleanup touches the hits listed under [hits] and nothing else:
    the search result dictionary (so the list of hits, its order and its
    length) is as before, no hit object appears or disappears, and a hit
    object that is not listed is as before. *)
Theorem cleanup_touches_listed_hits_only {V} {F : ResultsFields} (σ : state V) rs :
  search_result σ !! hits = Some rs →
  search_result (cleanup_final_reranked_results σ).1 = search_result σ
  ∧ dom (objects (cleanup_final_reranked_results σ).1) = dom (objects σ)
  ∧ ∀ l, l ∉ rs → objects (cleanup_final_reranked_results σ).1 !! l = objects σ !! l.
Proof.
  intros Hrs. rewrite (cleanup_run _ _ Hrs). cbn [fst search_result objects].
  split_and!; [done|apply dom_alter_all|].
  intros l Hl. by apply lookup_alter_all_notin.
Qed.

Lemma cleanup_touches_listed_hits_only_witness :
  search_result scenario_CD !! "hits" = Some [1; 2; 1; 3]%positive
  ∧ search_result (cleanup_final_reranked_results (F:=spec_fields) scenario_CD).1
    = search_result scenario_CD
  ∧ dom (objects (cleanup_final_reranked_results (F:=spec_fields) scenario_CD).1)
    = dom (objects scenario_CD)
  ∧ ∀ l, l ∉ [1; 2; 1; 3]%positive →
         objects (cleanup_final_reranked_results (F:=spec_fields) scenario_CD).1 !! l
         = objects scenario_CD !! l.
Proof.
  split; [reflexivity|].
  apply (cleanup_touches_listed_hits_only (F:=spec_fields) scenario_CD). reflexivity.
Defined.

(** X3. On a search result no reranker touched (no listed hit holds a scratch
    key) the cleanup changes nothing at all and returns normally. *)
Theorem cleanup_noop_without_scratch {V} {F : ResultsFields} (σ : state V) rs :
  search_result σ !! hits = Some rs →
  (∀ l k, l ∈ rs → k ∈ scratch_fields → has_key (deref σ l) k = false) →
  cleanup_final_reranked_results σ = (σ, Return tt).
Proof.
  intros Hrs Hfree. rewrite (cleanup_run _ _ Hrs). destruct σ as [sr m].
  cbn [search_result objects] in *. do 2 f_equal.
  apply alter_all_id. intros l h Hl Hh. apply cleanup_hit_id.
  assert (∀ k, k ∈ scratch_fields → h !! k = None) as Hk.
  { intros k Hk. specialize (Hfree l k Hl Hk). unfold deref, has_key in Hfree.
    cbn [objects] in Hfree. rewrite Hh in Hfree. cbn in Hfree.
    by apply bool_decide_eq_false_1, eq_None_not_Some in Hfree. }
  unfold scratch_free, scratch_fields in *.
  split_and!; apply Hk; rewrite !elem_of_cons; auto.
Qed.

Lemma cleanup_noop_without_scratch_witness :
  search_result scenario_AB !! "hits" = Some [1; 2]%positive
  ∧ (∀ l k, l ∈ [1; 2]%positive → k ∈ @scratch_fields spec_fields →
            has_key (deref scenario_AB l) k = false)
  ∧ cleanup_final_reranked_results (F:=spec_fields) scenario_AB = (scenario_AB, Return tt).
Proof.
  assert (∀ l k, l ∈ [1; 2]%positive → k ∈ @scratch_fields spec_fields →
                 has_key (deref scenario_AB l) k = false) as Hfree.
  { intros l k. unfold scratch_fields. rewrite !elem_of_cons, !elem_of_nil.
    intros [->|[->|[]]] [->|[->|[->|[]]]]; reflexivity. }
  split; [reflexivity|]. split; [exact Hfree|].
  apply (cleanup_noop_without_scratch (F:=spec_fields) scenario_AB [1; 2]%positive);
    [reflexivity | exact Hfree].
Defined.

(** X4. The cleanup of a hit invents nothing: a value found under a key
    afterwards was under that key before, or it is the hit's former
    [reranker_score] now under [original_score], or its former
    [highlights_reranked] now under [highlights]. *)
Theorem cleanup_hit_invents_nothing {V} {F : ResultsFields} (h : Hit V) k v :
  fields_distinct →
  cleanup_hit h !! k = Some v →
  h !! k = Some v
  ∨ (k = original_score ∧ h !! reranker_score = Some v)
  ∨ (k = highlights ∧ h !! highlights_reranked = Some v).
Proof.
  intros Hd. rewrite (lookup_cleanup_hit Hd). unfold promoted.
  repeat case_decide; subst; try done.
  - destruct (h !! reranker_score); auto.
  - destruct (h !! highlights_reranked); auto.
  - auto.
Qed.

#[warnings="-inexact-float"]
Lemma cleanup_hit_invents_nothing_witness :
  @fields_distinct spec_fields
  ∧ cleanup_hit (F:=spec_fields) scenario_C_hit !! "original_score" = Some (PyFloat 0.9)
  ∧ (scenario_C_hit !! "original_score" = Some (PyFloat 0.9)
     ∨ ("original_score" = @original_score spec_fields
        ∧ scenario_C_hit !! @reranker_score spec_fields = Some (PyFloat 0.9))
     ∨ ("original_score" = @highlights spec_fields
        ∧ scenario_C_hit !! @highlights_reranked spec_fields = Some (PyFloat 0.9))).
Proof.
  split; [exact spec_fields_distinct|]. split; [reflexivity|].
  apply (cleanup_hit_invents_nothing (F:=spec_fields) scenario_C_hit);
    [exact spec_fields_distinct | reflexivity].
Defined.

(** X5. The cleanup depends on which hits are listed, not on their order nor
    on how often one is listed: two search results over the same hit objects
    whose lists of hits have the same members end with the same hit objects. *)
Theorem cleanup_ignores_order_and_repeats {V} {F : ResultsFields}
    (σ σ' : state V) rs rs' :
  fields_distinct →
  search_result σ !! hits = Some rs →
  search_result σ' !! hits = Some rs' →
  objects σ = objects σ' →
  (∀ l, l ∈ rs ↔ l ∈ rs') →
  objects (cleanup_final_reranked_results σ).1
  = objects (cleanup_final_reranked_results σ').1.
Proof.
  intros Hd Hrs Hrs' Hobj Hmem. apply map_eq. intros l.
  rewrite (cleanup_objects Hd _ _ _ Hrs), (cleanup_objects Hd _ _ _ Hrs'), Hobj.
  by rewrite (bool_decide_ext _ _ (Hmem l)).
Qed.

Lemma cleanup_ignores_order_and_repeats_witness :
  @fields_distinct spec_fields
  ∧ search_result scenario_CD !! "hits" = Some [1; 2; 1; 3]%positive
  ∧ search_result (State {[ "hits" := [3; 2; 1]%positive ]} (objects scenario_CD)) !! "hits"
    = Some [3; 2; 1]%positive
  ∧ objects (cleanup_final_reranked_results (F:=spec_fields) scenario_CD).1
    = objects (cleanup_final_reranked_results (F:=spec_fields)
                 (State {[ "hits" := [3; 2; 1]%positive ]} (objects scenario_CD))).1.
Proof.
  split; [exact spec_fields_distinct|]. split; [reflexivity|]. split; [reflexivity|].
  apply (cleanup_ignores_order_and_repeats (F:=spec_fields) scenario_CD
           (State {[ "hits" := [3; 2; 1]%positive ]} (objects scenario_CD))
           [1; 2; 1; 3]%positive [3; 2; 1]%positive);
    [exact spec_fields_distinct | reflexivity | reflexivity | reflexivity |].
  intros l. rewrite !elem_of_cons, !elem_of_nil. tauto.
Defined.

(** ** Further properties of the guard *)




(** X7. The guard never lets an empty list, tuple or string through: when it
    answers true on a value that line 29 counts as empty, the value is
    [None]. *)
Theorem check_accepts_no_empty_collection {V} {F : ResultsFields}
    (σ σ' : state V) sa :
  _check_searchable_fields_in_results sa σ = (σ', Return true) →
  in_empties sa = true →
  sa = SNone.
Proof.
  intros Hg He.
  assert (∀ τ, any_hit_has_field (V:=V) [] σ ≠ (τ, Return true)) as Hnil.
  { intros τ. destruct (search_result σ !! hits) as [rs|] eqn:Hrs.
    - by rewrite (any_hit_has_field_nil _ _ Hrs).
    - by rewrite (any_hit_has_field_KeyError _ _ Hrs). }
  destruct sa as [|[|? ?]|[|? ?]|[|? ?]]; try done; cbn in Hg; by destruct (Hnil σ').
Qed.

Lemma check_accepts_no_empty_collection_witness :
  _check_searchable_fields_in_results (F:=spec_fields) SNone scenario_AB
  = (scenario_AB, Return true)
  ∧ in_empties SNone = true
  ∧ SNone = SNone.
Proof.
  split; [reflexivity|]. split; [reflexivity|].
  apply (check_accepts_no_empty_collection (F:=spec_fields) scenario_AB scenario_AB SNone);
    reflexivity.
Defined.

(** X8. Naming more fields never turns the guard's yes into a no: when the
    guard accepts a search result for a list of names, it accepts it for
    every list or tuple that contains those names, in any order. *)
Theorem check_monotone_in_fields {V} {F : ResultsFields} (σ : state V) fs fs' :
  (∀ s, s ∈ fs → s ∈ fs') →
  _check_searchable_fields_in_results (SList fs) σ = (σ, Return true) →
  _check_searchable_fields_in_results (SList fs') σ = (σ, Return true)
  ∧ _check_searchable_fields_in_results (STuple fs') σ = (σ, Return true).
Proof.
  intros Hsub Hg. cbn [_check_searchable_fields_in_results] in *.
  destruct (search_result σ !! hits) as [rs|] eqn:Hrs.
  - destruct (any_hit_has_field_run σ rs fs Hrs) as (b & Hrun & Hb).
    destruct (any_hit_has_field_run σ rs fs' Hrs) as (b' & Hrun' & Hb').
    rewrite Hrun in Hg. injection Hg as ->. rewrite Hrun'.
    assert (b' = true) as ->; [|done].
    apply Hb'. destruct (proj1 Hb eq_refl) as (l & s & ? & ? & ?).
    exists l, s. auto.
  - by rewrite (any_hit_has_field_KeyError _ _ Hrs) in Hg.
Qed.

Lemma check_monotone_in_fields_witness :
  (∀ s, s ∈ ["title"] → s ∈ ["price"; "title"])
  ∧ _check_searchable_fields_in_results (F:=spec_fields) (SList ["title"]) scenario_AB
    = (scenario_AB, Return true)
  ∧ _check_searchable_fields_in_results (F:=spec_fields) (SList ["price"; "title"]) scenario_AB
    = (scenario_AB, Return true)
  ∧ _check_searchable_fields_in_results (F:=spec_fields) (STuple ["price"; "title"]) scenario_AB
    = (scenario_AB, Return true).
Proof.
  assert (∀ s : string, s ∈ ["title"] → s ∈ ["price"; "title"]) as Hsub.
  { intros s. rewrite !elem_of_cons. tauto. }
  split; [exact Hsub|]. split; [reflexivity|].
  apply (check_monotone_in_fields (F:=spec_fields) scenario_AB ["title"] ["price"; "title"]);
    [exact Hsub | reflexivity].
Defined.

(** ** Further properties of the entry point *)

Lemma bind_ret_PyNone_outcome {V A} (m : M V A) (σ σ' : state V) :
  bind m (λ _, ret PyNone) σ ≠ (σ', Return PySearchResult).
Proof.
  unfold bind, ret. destruct (m σ) as [τ [a|e]]; intros [=].
Qed.

Lemma bind_bind_ret_PyNone_outcome {V A B} (m : M V A) (k : M V B) (σ σ' : state V) :
  bind m (λ _, bind k (λ _, ret PyNone)) σ ≠ (σ', Return PySearchResult).
Proof.
  unfold bind at 1. destruct (m σ) as [τ [a|e]]; [apply bind_ret_PyNone_outcome|done].
Qed.

(** X9. Without the entry [hits] and with [searchable_attributes] other than
    [None], the call raises [KeyError] on that key from the guard (line 56):
    no reranker runs and the state is as it was, for every model name. *)
Theorem rerank_without_hits_raises_KeyError {V} {F : ResultsFields}
    (ReRankerOwl_rerank : string → string → Z * Z → string → searchable → M V unit)
    (ReRankerText_rerank : string → string → Z → string → searchable → M V unit)
    query model_name device sa nh ow (σ : state V) :
  search_result σ !! hits = None →
  sa ≠ SNone →
  rerank_search_results ReRankerOwl_rerank ReRankerText_rerank
    query model_name device sa nh ow σ
  = (σ, Raise (KeyError hits)).
Proof.
  intros Hrs Hsa. unfold rerank_search_results.
  apply bind_Raise. destruct sa; [done|..]; by apply any_hit_has_field_KeyError.
Qed.

Lemma rerank_without_hits_raises_KeyError_witness :
  search_result scenario_no_hits !! "hits" = None
  ∧ SList ["title"] ≠ SNone
  ∧ rerank_search_results (F:=spec_fields) (@toy_owl spec_fields) (@toy_text spec_fields)
      "query" "cross-encoder/ms-marco-MiniLM-L-6-v2" "cpu" (SList ["title"]) 1 true
      scenario_no_hits
    = (scenario_no_hits, Raise (KeyError "hits")).
Proof.
  split; [reflexivity|]. split; [discriminate|].
  apply (rerank_without_hits_raises_KeyError (F:=spec_fields)
           (@toy_owl spec_fields) (@toy_text spec_fields)
           "query" "cross-encoder/ms-marco-MiniLM-L-6-v2" "cpu" (SList ["title"]) 1 true
           scenario_no_hits); [reflexivity | discriminate].
Defined.

(** X10. On an empty list of hits every [searchable_attributes] other than
    [None] makes the call return at line 25: no reranker runs, nothing is
    raised (not even for the image strategy), the state is as it was. *)
Theorem rerank_on_empty_hits_skips {V} {F : ResultsFields}
    (ReRankerOwl_rerank : string → string → Z * Z → string → searchable → M V unit)
    (ReRankerText_rerank : string → string → Z → string → searchable → M V unit)
    query model_name device sa nh ow (σ : state V) :
  search_result σ !! hits = Some [] →
  sa ≠ SNone →
  rerank_search_results ReRankerOwl_rerank ReRankerText_rerank
    query model_name device sa nh ow σ
  = (σ, Return PySearchResult).
Proof.
  intros Hrs Hsa. apply rerank_rejected.
  assert (∀ fs, any_hit_has_field fs σ = (σ, Return false)) as Hany.
  { intros fs. destruct (any_hit_has_field_run σ [] fs Hrs) as (b & -> & Hb).
    destruct b; [|done].
    by destruct (proj1 Hb eq_refl) as (? & ? & ?%elem_of_nil & _). }
  destruct sa; [done|..]; apply Hany.
Qed.

Lemma rerank_on_empty_hits_skips_witness :
  search_result scenario_empty_hits !! "hits" = Some []
  ∧ SList ["image"] ≠ SNone
  ∧ rerank_search_results (F:=spec_fields) (@toy_owl spec_fields) (@toy_text spec_fields)
      "query" "google/owlvit-base-patch32" "cpu" (SList ["image"]) 1 true
      scenario_empty_hits
    = (scenario_empty_hits, Return PySearchResult).
Proof.
  split; [reflexivity|]. split; [discriminate|].
  apply (rerank_on_empty_hits_skips (F:=spec_fields)
           (@toy_owl spec_fields) (@toy_text spec_fields)
           "query" "google/owlvit-base-patch32" "cpu" (SList ["image"]) 1 true
           scenario_empty_hits); [reflexivity | discriminate].
Defined.

(** X11. An exception of the selected reranker leaves the call as it is, with
    the state the reranker left behind, scratch keys included: the cleanup
    does not run, whatever the overwrite flag. *)
Theorem reranker_error_skips_cleanup {V} {F : ResultsFields}
    (ReRankerOwl_rerank : string → string → Z * Z → string → searchable → M V unit)
    (ReRankerText_rerank : string → string → Z → string → searchable → M V unit)
    query model_name device sa nh (σ σ1 : state V) e :
  _check_searchable_fields_in_results sa σ = (σ, Return true) →
  str_in "owl" (lower model_name) && in_empties sa = false →
  selected_reranker ReRankerOwl_rerank ReRankerText_rerank
    query model_name device sa nh σ = (σ1, Raise e) →
  ∀ ow, rerank_search_results ReRankerOwl_rerank ReRankerText_rerank
          query model_name device sa nh ow σ
        = (σ1, Raise e).
Proof. intros Hg Hpre Hs ow. by apply rerank_strategy_raises. Qed.

Lemma reranker_error_skips_cleanup_witness :
  _check_searchable_fields_in_results (F:=spec_fields) (SList ["title"]) scenario_AB
  = (scenario_AB, Return true)
  ∧ str_in "owl" (lower "cross-encoder/ms-marco-MiniLM-L-6-v2")
    && in_empties (SList ["title"]) = false
  ∧ selected_reranker (@toy_owl spec_fields) (@toy_failing spec_fields)
      "query" "cross-encoder/ms-marco-MiniLM-L-6-v2" "cpu" (SList ["title"]) 1 scenario_AB
    = (scenario_AB_reranked, Raise (StrategyError "inference failed"))
  ∧ ∀ ow, rerank_search_results (F:=spec_fields) (@toy_owl spec_fields)
            (@toy_failing spec_fields)
            "query" "cross-encoder/ms-marco-MiniLM-L-6-v2" "cpu" (SList ["title"]) 1 ow
            scenario_AB
          = (scenario_AB_reranked, Raise (StrategyError "inference failed")).
Proof.
  split; [reflexivity|]. split; [reflexivity|]. split; [by vm_compute|].
  apply (reranker_error_skips_cleanup (F:=spec_fields)
           (@toy_owl spec_fields) (@toy_failing spec_fields)
           "query" "cross-encoder/ms-marco-MiniLM-L-6-v2" "cpu" (SList ["title"]) 1
           scenario_AB scenario_AB_reranked (StrategyError "inference failed"));
    [reflexivity | reflexivity | by vm_compute].
Defined.

(** X12. End to end, in overwrite mode: once the guard has accepted, the
    selected reranker has returned, and the search result still has its entry
    [hits], the call returns [None] and no listed hit holds a scratch key,
    whatever the reranker wrote. *)
Theorem rerank_overwrite_leaves_no_scratch {V} {F : ResultsFields}
    (ReRankerOwl_rerank : string → string → Z * Z → string → searchable → M V unit)
    (ReRankerText_rerank : string → string → Z → string → searchable → M V unit)
    query model_name device sa nh (σ σ1 : state V) rs1 :
  fields_distinct →
  _check_searchable_fields_in_results sa σ = (σ, Return true) →
  str_in "owl" (lower model_name) && in_empties sa = false →
  selected_reranker ReRankerOwl_rerank ReRankerText_rerank
    query model_name device sa nh σ = (σ1, Return tt) →
  search_result σ1 !! hits = Some rs1 →
  ∃ σ2, rerank_search_results ReRankerOwl_rerank ReRankerText_rerank
          query model_name device sa nh true σ
        = (σ2, Return PyNone)
        ∧ search_result σ2 = search_result σ1
        ∧ ∀ l k, l ∈ rs1 → k ∈ scratch_fields → has_key (deref σ2 l) k = false.
Proof.
  intros Hd Hg Hpre Hs Hrs1.
  exists (cleanup_final_reranked_results σ1).1. split_and!.
  - rewrite rerank_accepted by done. rewrite (bind_Return _ _ _ _ _ Hs).
    by rewrite (bind_Return _ _ _ _ _ (cleanup_run _ _ Hrs1)), (cleanup_run _ _ Hrs1).
  - apply cleanup_search_result.
  - intros l k Hl Hk. rewrite (cleanup_deref Hd _ _ _ Hrs1 Hl).
    unfold has_key. apply bool_decide_eq_false_2.
    rewrite (lookup_cleanup_hit Hd), decide_True by done. by intros [? ?].
Qed.

Lemma rerank_overwrite_leaves_no_scratch_witness :
  @fields_distinct spec_fields
  ∧ _check_searchable_fields_in_results (F:=spec_fields) (SList ["title"]) scenario_AB
    = (scenario_AB, Return true)
  ∧ selected_reranker (@toy_owl spec_fields) (@toy_text spec_fields)
      "query" "cross-encoder/ms-marco-MiniLM-L-6-v2" "cpu" (SList ["title"]) 1 scenario_AB
    = (scenario_AB_reranked, Return tt)
  ∧ ∃ σ2, rerank_search_results (F:=spec_fields) (@toy_owl spec_fields)
            (@toy_text spec_fields)
            "query" "cross-encoder/ms-marco-MiniLM-L-6-v2" "cpu" (SList ["title"]) 1 true
            scenario_AB
          = (σ2, Return PyNone)
          ∧ search_result σ2 = search_result scenario_AB_reranked
          ∧ ∀ l k, l ∈ [1; 2]%positive → k ∈ @scratch_fields spec_fields →
                   has_key (deref σ2 l) k = false.
Proof.
  split; [exact spec_fields_distinct|]. split; [reflexivity|]. split; [by vm_compute|].
  apply (rerank_overwrite_leaves_no_scratch (F:=spec_fields)
           (@toy_owl spec_fields) (@toy_text spec_fields)
           "query" "cross-encoder/ms-marco-MiniLM-L-6-v2" "cpu" (SList ["title"]) 1
           scenario_AB scenario_AB_reranked [1; 2]%positive);
    [exact spec_fields_distinct | reflexivity | reflexivity | by vm_compute | reflexivity].
Defined.

(** X13. With a model name that contains [owl] in some letter case, a call
    with [searchable_attributes=None], given or left to its default, raises
    [RerankerError] on every state, with or without an entry [hits]: the
    state is as it was and no reranker runs. *)
Theorem owl_without_attributes_raises {V} {F : ResultsFields}
    (ReRankerOwl_rerank : string → string → Z * Z → string → searchable → M V unit)
    (ReRankerText_rerank : string → string → Z → string → searchable → M V unit)
    query model_name device nh ow (σ : state V) :
  names_owl model_name →
  rerank_search_results ReRankerOwl_rerank ReRankerText_rerank
    query model_name device SNone nh ow σ
  = (σ, Raise (RerankerError SNone model_name))
  ∧ rerank_search_results_kw ReRankerOwl_rerank ReRankerText_rerank
      query model_name device None (Some nh) (Some ow) σ
    = (σ, Raise (RerankerError SNone model_name)).
Proof. intros Howl. split; by apply rerank_owl_None. Qed.

Lemma owl_without_attributes_raises_witness :
  names_owl "google/OWLvit-base-patch32"
  ∧ rerank_search_results (F:=spec_fields) (@toy_owl spec_fields) (@toy_text spec_fields)
      "query" "google/OWLvit-base-patch32" "cpu" SNone 1 true scenario_no_hits
    = (scenario_no_hits, Raise (RerankerError SNone "google/OWLvit-base-patch32"))
  ∧ rerank_search_results_kw (F:=spec_fields) (@toy_owl spec_fields) (@toy_text spec_fields)
      "query" "google/OWLvit-base-patch32" "cpu" None (Some 1%Z) (Some true)
      scenario_no_hits
    = (scenario_no_hits, Raise (RerankerError SNone "google/OWLvit-base-patch32")).
Proof.
  assert (names_owl "google/OWLvit-base-patch32") as Howl.
  { exists "google/", "OWL", "vit-base-patch32". split; [reflexivity|].
    unfold owl_spellings. rewrite !elem_of_cons. auto 10. }
  split; [exact Howl|].
  apply (owl_without_attributes_raises (F:=spec_fields)
           (@toy_owl spec_fields) (@toy_text spec_fields)
           "query" "google/OWLvit-base-patch32" "cpu" 1 true scenario_no_hits Howl).
Defined.

(** X14. What the call returns tells whether reranking was skipped: it
    returns its argument [search_result] exactly when the guard answered
    false, and then the state is the one it was called in. *)
Theorem rerank_returns_argument_iff_rejected {V} {F : ResultsFields}
    (ReRankerOwl_rerank : string → string → Z * Z → string → searchable → M V unit)
    (ReRankerText_rerank : string → string → Z → string → searchable → M V unit)
    query model_name device sa nh ow (σ σ' : state V) :
  rerank_search_results ReRankerOwl_rerank ReRankerText_rerank
    query model_name device sa nh ow σ
  = (σ', Return PySearchResult)
  ↔ _check_searchable_fields_in_results sa σ = (σ, Return false) ∧ σ' = σ.
Proof.
  split.
  - pose proof (check_searchable_fields_pure sa σ) as Hpure.
    unfold rerank_search_results. unfold bind at 1.
    destruct (_check_searchable_fields_in_results sa σ) as [τ [[|]|e]];
      cbn [fst] in Hpure; subst τ; cbn [negb].
    + intros Hr. by apply bind_bind_ret_PyNone_outcome in Hr.
    + by intros [= <-].
    + done.
  - intros [Hg ->]. by apply rerank_rejected.
Qed.

Lemma append_assoc (s t u : string) : (s +:+ t) +:+ u = s +:+ t +:+ u.
Proof.
  induction s as [|c s IH]; [done|]. by rewrite !append_cons, IH.
Qed.

Lemma names_owl_extension model_name pre post :
  names_owl model_name → names_owl (pre +:+ model_name +:+ post).
Proof.
  intros (p1 & mid & p2 & -> & Hmid).
  exists (pre +:+ p1), mid, (p2 +:+ post). split; [|done].
  by rewrite !append_assoc.
Qed.

(** X15. The guard looks at keys, never at values: on two states with the
    same search result dictionary whose hit objects have the same keys, it
    gives the same answer or raises the same exception. *)
Theorem check_depends_on_keys_only {V} {F : ResultsFields} (σ σ' : state V) sa :
  search_result σ = search_result σ' →
  (∀ l, dom (deref σ l) = dom (deref σ' l)) →
  (_check_searchable_fields_in_results sa σ).2
  = (_check_searchable_fields_in_results sa σ').2.
Proof.
  intros Hsr Hdom.
  assert (∀ l s, has_key (deref σ l) s = has_key (deref σ' l) s) as Hkey.
  { intros l s. unfold has_key. apply bool_decide_ext.
    by rewrite <- !elem_of_dom, Hdom. }
  assert (∀ fs, (any_hit_has_field fs σ).2 = (any_hit_has_field fs σ').2) as Hany.
  { intros fs. unfold any_hit_has_field, bind, getitem. rewrite <- Hsr.
    destruct (search_result σ !! hits) as [rs|]; [|done]. cbn [snd].
    do 3 f_equal. induction rs as [|l rs IH]; [done|]. cbn [List.filter].
    assert (map (has_key (deref σ l)) fs = map (has_key (deref σ' l)) fs) as ->.
    { apply map_ext. intros s. apply Hkey. }
    by rewrite IH. }
  destruct sa; cbn [_check_searchable_fields_in_results]; auto.
Qed.

Lemma check_depends_on_keys_only_witness :
  search_result scenario_AB = search_result scenario_AB_other_values
  ∧ (∀ l, dom (deref scenario_AB l) = dom (deref scenario_AB_other_values l))
  ∧ (_check_searchable_fields_in_results (F:=spec_fields) (SList ["title"]) scenario_AB).2
    = (_check_searchable_fields_in_results (F:=spec_fields) (SList ["title"])
         scenario_AB_other_values).2.
Proof.
  assert (∀ l, dom (deref scenario_AB l) = dom (deref scenario_AB_other_values l)) as Hdom.
  { intros l. unfold deref, scenario_AB, scenario_AB_other_values. cbn [objects].
    destruct (decide (l = 1%positive)) as [->|H1]; [reflexivity|].
    destruct (decide (l = 2%positive)) as [->|H2]; [reflexivity|].
    rewrite !lookup_insert_ne, !lookup_singleton_ne by done. reflexivity. }
  split; [reflexivity|]. split; [exact Hdom|].
  apply (check_depends_on_keys_only (F:=spec_fields)
           scenario_AB scenario_AB_other_values (SList ["title"]));
    [reflexivity | exact Hdom].
Defined.

(** X16. The image strategy is picked by substring alone: when a name selects
    the Owl reranker, so does every name that contains it, whatever is put
    before or after it. *)
Theorem owl_selected_by_any_extension {V} {F : ResultsFields}
    (ReRankerOwl_rerank : string → string → Z * Z → string → searchable → M V unit)
    (ReRankerText_rerank : string → string → Z → string → searchable → M V unit)
    query model_name device sa nh ow pre post (σ : state V) :
  _check_searchable_fields_in_results sa σ = (σ, Return true) →
  in_empties sa = false →
  str_in "owl" (lower model_name) = true →
  rerank_search_results ReRankerOwl_rerank ReRankerText_rerank
    query (pre +:+ model_name +:+ post) device sa nh ow σ
  = (ReRankerOwl_rerank (pre +:+ model_name +:+ post) device (240, 240)%Z query sa ;;'
     (if ow then cleanup_final_reranked_results else ret tt) ;;'
     ret PyNone) σ.
Proof.
  intros Hg He Howl%owl_in_lower%(names_owl_extension _ pre post)%owl_in_lower.
  rewrite rerank_accepted; [|done|by rewrite Howl, He].
  unfold selected_reranker. by rewrite Howl.
Qed.

Lemma owl_selected_by_any_extension_witness :
  _check_searchable_fields_in_results (F:=spec_fields) (SList ["title"]) scenario_AB
  = (scenario_AB, Return true)
  ∧ in_empties (SList ["title"]) = false
  ∧ str_in "owl" (lower "Owl") = true
  ∧ rerank_search_results (F:=spec_fields) (@toy_owl spec_fields) (@toy_text spec_fields)
      "query" ("kn" +:+ "Owl" +:+ "edge-distilled-bert") "cpu" (SList ["title"]) 1 false
      scenario_AB
    = (@toy_owl spec_fields ("kn" +:+ "Owl" +:+ "edge-distilled-bert") "cpu"
         (240, 240)%Z "query" (SList ["title"]) ;;'
       ret tt ;;'
       ret PyNone) scenario_AB.
Proof.
  split; [reflexivity|]. split; [reflexivity|]. split; [reflexivity|].
  apply (owl_selected_by_any_extension (F:=spec_fields)
           (@toy_owl spec_fields) (@toy_text spec_fields)
           "query" "Owl" "cpu" (SList ["title"]) 1 false "kn" "edge-distilled-bert"
           scenario_AB); reflexivity.
Defined.
